(** * Gacha banner manager and draw flow: a shallow embedding

    Sources embedded here:
    - [src/src/web/resources/app.js], class [BannerManager]: the item sets
      of the banner form ([removeIncludedItem], [validateUpItems],
      [clearAllIncludedItems]), [validateForm] and the banner object built
      by [saveBanner];
    - [src/src/web/dev/components/ConfigEditor.tsx]: [updateRate] and
      [updatePityBaseField];
    - [src/gacha_flowchart.md]: the single-draw flow (nodes A .. AC).

    Numbers.  JavaScript numbers and Python floats that hold rates are
    modelled as exact rationals ([Q]); rounding is not modelled.  What
    [parseInt] / [parseFloat] return on a form input is an [option]:
    [None] stands for [NaN].  Pull counts are integers ([Z]). *)

From Stdlib Require Import ZArith QArith Qabs Qminmax Qround String Ascii List Lia.
From stdpp Require Import base option list gmap strings.

Local Open Scope Z_scope.

(** ** Rational comparisons as booleans *)

Definition Qltb (a b : Q) : bool := negb (Qle_bool b a).

(** ** JavaScript comparisons on possibly-[NaN] numbers

    Every comparison with [NaN] is [false]. *)

Module Js.

Definition geb (a b : option Z) : bool :=
  match a, b with
  | Some x, Some y => y <=? x
  | _, _ => false
  end.

Definition gtb (a b : option Z) : bool :=
  match a, b with
  | Some x, Some y => y <? x
  | _, _ => false
  end.

Definition leb (a b : option Z) : bool :=
  match a, b with
  | Some x, Some y => x <=? y
  | _, _ => false
  end.

(** [x || 0] on a number: [NaN] (and 0) give 0. *)
Definition or_zero (a : option Q) : Q :=
  match a with
  | Some q => q
  | None => 0%Q
  end.

(** ASCII white space, as removed by [String.prototype.trim]. *)
Definition is_space (c : ascii) : bool :=
  match nat_of_ascii c with
  | 9%nat | 10%nat | 11%nat | 12%nat | 13%nat | 32%nat => true
  | _ => false
  end.

Fixpoint trim_start (s : string) : string :=
  match s with
  | String c rest => if is_space c then trim_start rest else s
  | EmptyString => EmptyString
  end.

Definition reverse_string (s : string) : string :=
  string_of_list_ascii (rev (list_ascii_of_string s)).

(** [s.trim()] *)
Definition trim (s : string) : string :=
  reverse_string (trim_start (reverse_string (trim_start s))).

(** [!s] on a string: true exactly for the empty string. *)
Definition is_empty (s : string) : bool :=
  match s with
  | EmptyString => true
  | String _ _ => false
  end.

(** [l.join(',')] *)
Fixpoint join (l : list string) : string :=
  match l with
  | [] => EmptyString
  | [x] => x
  | x :: rest => x ++ "," ++ join rest
  end.

(** [s.split(',')]: [cur] holds the reversed characters of the piece
    being read. *)
Fixpoint split_go (s : string) (cur : list ascii) : list string :=
  match s with
  | EmptyString => [string_of_list_ascii (rev cur)]
  | String c rest =>
      if Ascii.eqb c ","%char
      then string_of_list_ascii (rev cur) :: split_go rest []
      else split_go rest (c :: cur)
  end.

Definition split (s : string) : list string := split_go s [].

End Js.

(** ** The banner object posted by [saveBanner] *)

Record SoftPity := {
  start_pull : Z;
  end_pull : Z;
  increment : Q
}.

Record Progression := {
  hard_pity_pull : Z;
  hard_pity_rate : Q;
  soft_pity : list SoftPity
}.

Record ProbabilitySettings := {
  base_5star_rate : Q;
  base_4star_rate : Q;
  _4star_role_rate : Q;
  base_3star_rate : Q;
  up_5star_rate : Q;
  up_4star_rate : Q
}.

(** [rate_up_items] has the keys ['5star'] and ['4star']. *)
Record RateUpItems := {
  rate_up_5star : list string;
  rate_up_4star : list string
}.

(** [included_items] has the keys ['5star'], ['4star'] and ['3star']. *)
Record IncludedItems := {
  included_5star : list string;
  included_4star : list string;
  included_3star : list string
}.

(** [probability_progression] has the keys ['5star'] and ['4star']. *)
Record ProgressionTable := {
  progression_5star : Progression;
  progression_4star : Progression
}.

Record Banner := {
  name : string;
  probability_settings : ProbabilitySettings;
  rate_up_items : RateUpItems;
  included_items : IncludedItems;
  probability_progression : ProgressionTable
}.

(** ** String operations of the item search

    Strings are sequences of character codes.  [toLowerCase] maps the
    ASCII letters [A] .. [Z]; every other code is left as it is. *)

Module JsText.

Definition lower (c : ascii) : ascii :=
  let n := nat_of_ascii c in
  if ((65 <=? n)%nat && (n <=? 90)%nat)%bool then ascii_of_nat (n + 32) else c.

(** [s.toLowerCase()] *)
Fixpoint toLowerCase (s : string) : string :=
  match s with
  | EmptyString => EmptyString
  | String c rest => String (lower c) (toLowerCase rest)
  end.

(** [s.startsWith(term)] *)
Fixpoint starts_with (term s : string) : bool :=
  match term, s with
  | EmptyString, _ => true
  | String a term, String b s => Ascii.eqb a b && starts_with term s
  | String _ _, EmptyString => false
  end.

(** [s.includes(term)] *)
Fixpoint includes (s term : string) : bool :=
  starts_with term s ||
  match s with
  | EmptyString => false
  | String _ rest => includes rest term
  end.

(** The string holds no comma. *)
Definition comma_free (s : string) : bool :=
  forallb (fun c => negb (Ascii.eqb c ","%char)) (list_ascii_of_string s).

End JsText.

(** ** The item catalogue ([allItems], loaded from [/api/items]) *)

Module Catalog.

Record Item := {
  name : string;
  rarity : Z;
  type : string;
  affiliated_type : string
}.

End Catalog.

(** ** [BannerManager] (app.js)

    The manager's state is its five item sets together with the values
    held by the inputs of the banner form.  Rendering calls
    ([updateIncludedItemsDisplay], [filterIncludedItems],
    [updateSelectedDisplay], [filterAvailableItems]) only rebuild DOM
    nodes from that state and are left out. *)

Module BannerManager.

(** One [.soft-pity-entry] row: the values [parseInt] / [parseFloat]
    give on its three inputs. *)
Record SoftPityEntry := {
  soft_pity_start : option Z;
  soft_pity_end : option Z;
  soft_pity_increment : option Q
}.

(** The form inputs read by [validateForm] and [saveBanner].  A numeric
    field holds what [parseFloat] (rates) or [parseInt] (pull counts)
    returns on the input's value. *)
Record Form := {
  bannerName : string;
  base5StarRate : option Q;
  base4StarRate : option Q;
  up5StarRate : option Q;
  up4StarRate : option Q;
  hardPityPull : option Z;
  hardPityRate : option Q;
  softPityEntries : list SoftPityEntry
}.

Record t := {
  selected5StarItems : gset string;
  selected4StarItems : gset string;
  included5StarItems : gset string;
  included4StarItems : gset string;
  included3StarItems : gset string;
  form : Form
}.

Definition set_selected5 (this : t) (s : gset string) : t :=
  {| selected5StarItems := s;
     selected4StarItems := selected4StarItems this;
     included5StarItems := included5StarItems this;
     included4StarItems := included4StarItems this;
     included3StarItems := included3StarItems this;
     form := form this |}.

Definition set_selected4 (this : t) (s : gset string) : t :=
  {| selected5StarItems := selected5StarItems this;
     selected4StarItems := s;
     included5StarItems := included5StarItems this;
     included4StarItems := included4StarItems this;
     included3StarItems := included3StarItems this;
     form := form this |}.

Definition set_included5 (this : t) (s : gset string) : t :=
  {| selected5StarItems := selected5StarItems this;
     selected4StarItems := selected4StarItems this;
     included5StarItems := s;
     included4StarItems := included4StarItems this;
     included3StarItems := included3StarItems this;
     form := form this |}.

Definition set_included4 (this : t) (s : gset string) : t :=
  {| selected5StarItems := selected5StarItems this;
     selected4StarItems := selected4StarItems this;
     included5StarItems := included5StarItems this;
     included4StarItems := s;
     included3StarItems := included3StarItems this;
     form := form this |}.

Definition set_included3 (this : t) (s : gset string) : t :=
  {| selected5StarItems := selected5StarItems this;
     selected4StarItems := selected4StarItems this;
     included5StarItems := included5StarItems this;
     included4StarItems := included4StarItems this;
     included3StarItems := s;
     form := form this |}.

(** [set.delete(item)] *)
Definition delete (item : string) (s : gset string) : gset string :=
  s ∖ {[ item ]}.

(** [removeIncludedItem(itemName, rarity)] *)
Definition removeIncludedItem (itemName : string) (rarity : Z) (this : t) : t :=
  if rarity =? 5 then
    let this := set_included5 this (delete itemName (included5StarItems this)) in
    (* Also remove from UP items if present *)
    if decide (itemName ∈ selected5StarItems this)
    then set_selected5 this (delete itemName (selected5StarItems this))
    else this
  else if rarity =? 4 then
    let this := set_included4 this (delete itemName (included4StarItems this)) in
    if decide (itemName ∈ selected4StarItems this)
    then set_selected4 this (delete itemName (selected4StarItems this))
    else this
  else
    set_included3 this (delete itemName (included3StarItems this)).

(** [items.forEach(item => selected.delete(item))] *)
Definition delete_each (items : list string) (selected : gset string) : gset string :=
  foldl (fun s item => delete item s) selected items.

(** [Array.from(selected).filter(item => !included.has(item))] *)
Definition invalid_items (selected included : gset string) : list string :=
  filter (fun item => item ∉ included) (elements selected).

(** [validateUpItems()] *)
Definition validateUpItems (this : t) : t :=
  let invalid5StarItems :=
    invalid_items (selected5StarItems this) (included5StarItems this) in
  let this :=
    if (0 <? Z.of_nat (length invalid5StarItems))
    then set_selected5 this (delete_each invalid5StarItems (selected5StarItems this))
    else this in
  let invalid4StarItems :=
    invalid_items (selected4StarItems this) (included4StarItems this) in
  if (0 <? Z.of_nat (length invalid4StarItems))
  then set_selected4 this (delete_each invalid4StarItems (selected4StarItems this))
  else this.

(** [removedItems.forEach(item => { if (selected.has(item)) selected.delete(item) })] *)
Definition delete_present (removedItems : list string) (selected : gset string)
  : gset string :=
  foldl (fun s item => if decide (item ∈ s) then delete item s else s)
        selected removedItems.

(** [clearAllIncludedItems(rarity)] *)
Definition clearAllIncludedItems (rarity : Z) (this : t) : t :=
  if rarity =? 5 then
    let removedItems := elements (included5StarItems this) in
    let this := set_included5 this ∅ in
    set_selected5 this (delete_present removedItems (selected5StarItems this))
  else if rarity =? 4 then
    let removedItems := elements (included4StarItems this) in
    let this := set_included4 this ∅ in
    set_selected4 this (delete_present removedItems (selected4StarItems this))
  else
    set_included3 this ∅.

(** The [alert] shown by a failed check of [validateForm]. *)
Inductive Alert :=
| AlertNameRequired
| AlertNegative5Star
| AlertNegative4Star
| AlertNegative3Star
| AlertRateSum (totalRate : Q)
| AlertSoftPityRange (entry_number : nat)
| AlertHardPity (maxSoftPityEnd : Z).

(** The [for] loop over the soft-pity rows: either the alert of the
    first row with [start >= end], or the final [maxSoftPityEnd]. *)
Fixpoint check_soft_pity (entries : list SoftPityEntry) (i : nat)
    (maxSoftPityEnd : Z) : Alert + Z :=
  match entries with
  | [] => inr maxSoftPityEnd
  | entry :: rest =>
      if Js.geb (soft_pity_start entry) (soft_pity_end entry)
      then inl (AlertSoftPityRange (i + 1))
      else
        let maxSoftPityEnd :=
          if Js.gtb (soft_pity_end entry) (Some maxSoftPityEnd)
          then default maxSoftPityEnd (soft_pity_end entry)
          else maxSoftPityEnd in
        check_soft_pity rest (S i) maxSoftPityEnd
  end.

(** [validateForm()]: [inr tt] is [return true], [inl a] is the alert
    [a] followed by [return false]. *)
Definition validateForm (this : t) : Alert + unit :=
  let f := form this in
  let name := Js.trim (bannerName f) in
  if Js.is_empty name then inl AlertNameRequired else
  let base5Star := Js.or_zero (base5StarRate f) in
  let base4Star := Js.or_zero (base4StarRate f) in
  let base3Star := (1 - base5Star - base4Star)%Q in
  if Qltb base5Star 0 then inl AlertNegative5Star else
  if Qltb base4Star 0 then inl AlertNegative4Star else
  if Qltb base3Star 0 then inl AlertNegative3Star else
  let totalRate := (base5Star + base4Star + base3Star)%Q in
  if Qltb (1 # 100) (Qabs (totalRate - 1)) then inl (AlertRateSum totalRate) else
  match check_soft_pity (softPityEntries f) 0 0 with
  | inl a => inl a
  | inr maxSoftPityEnd =>
      if Js.leb (hardPityPull f) (Some maxSoftPityEnd)
      then inl (AlertHardPity maxSoftPityEnd)
      else inr tt
  end.

(** The pieces of a comma-joined set that survive
    [.split(',').filter(item => item.trim() !== '')]. *)
Definition item_list (s : gset string) : list string :=
  filter (fun item => Js.is_empty (Js.trim item) = false)
         (Js.split (Js.join (elements s))).

Definition soft_pity_of_entry (entry : SoftPityEntry) : option SoftPity :=
  start ← soft_pity_start entry;
  end_ ← soft_pity_end entry;
  inc ← soft_pity_increment entry;
  Some {| start_pull := start; end_pull := end_; increment := inc |}.

(** The [banner] object built by [saveBanner] once [validateForm] has
    passed.  A banner whose numbers are all proper numbers is [Some];
    a [NaN] among them (serialised as [null]) gives [None].  The 4-star
    progression is the fixed default written in [saveBanner]. *)
Definition banner_of_form (this : t) : option Banner :=
  let f := form this in
  b5 ← base5StarRate f;
  b4 ← base4StarRate f;
  up5 ← up5StarRate f;
  up4 ← up4StarRate f;
  hard_pull ← hardPityPull f;
  hard_rate ← hardPityRate f;
  softPity ← mapM soft_pity_of_entry (softPityEntries f);
  Some {|
    name := Js.trim (bannerName f);
    probability_settings := {|
      base_5star_rate := b5;
      base_4star_rate := b4;
      _4star_role_rate := 6 # 100;
      base_3star_rate := 1 - b5 - b4;
      up_5star_rate := up5;
      up_4star_rate := up4 |};
    rate_up_items := {|
      rate_up_5star := item_list (selected5StarItems this);
      rate_up_4star := item_list (selected4StarItems this) |};
    included_items := {|
      included_5star := item_list (included5StarItems this);
      included_4star := item_list (included4StarItems this);
      included_3star := item_list (included3StarItems this) |};
    probability_progression := {|
      progression_5star := {|
        hard_pity_pull := hard_pull;
        hard_pity_rate := hard_rate;
        soft_pity := softPity |};
      progression_4star := {|
        hard_pity_pull := 10;
        hard_pity_rate := 1;
        soft_pity := [] |} |}
  |}.

(** [saveBanner()] up to the request: the banner that is posted, if
    any. *)
Definition saveBanner (this : t) : option Banner :=
  match validateForm this with
  | inl _ => None
  | inr _ => banner_of_form this
  end.

(** A soft-pity row that passes the check of the loop. *)
Definition row_ok (entry : SoftPityEntry) : Prop :=
  Js.geb (soft_pity_start entry) (soft_pity_end entry) = false.

(** Every UP item of the 5-star and of the 4-star tier is an included
    item of that tier. *)
Definition up_within_included (this : t) : Prop :=
  selected5StarItems this ⊆ included5StarItems this /\
  selected4StarItems this ⊆ included4StarItems this.

(** *** Selecting items

    The dropdown functions [filterAvailableItems] and
    [filterIncludedItems] are modelled by the list of items they hand to
    the renderer; [allItems] is the catalogue of the manager. *)

(** [set.add(item)] *)
Definition add (item : string) (s : gset string) : gset string :=
  {[ item ]} ∪ s.

(** [set.has(item)] *)
Definition has (item : string) (s : gset string) : bool :=
  bool_decide (item ∈ s).

(** [selectItem(itemName, rarity)] *)
Definition selectItem (itemName : string) (rarity : Z) (this : t) : t :=
  if rarity =? 5 then
    if decide (itemName ∈ selected5StarItems this) then this
    else set_selected5 this (add itemName (selected5StarItems this))
  else
    if decide (itemName ∈ selected4StarItems this) then this
    else set_selected4 this (add itemName (selected4StarItems this)).

(** [removeSelectedItem(itemName, rarity)] *)
Definition removeSelectedItem (itemName : string) (rarity : Z) (this : t) : t :=
  if rarity =? 5
  then set_selected5 this (delete itemName (selected5StarItems this))
  else set_selected4 this (delete itemName (selected4StarItems this)).

(** [selectIncludedItem(itemName, rarity)] *)
Definition selectIncludedItem (itemName : string) (rarity : Z) (this : t) : t :=
  if rarity =? 5 then set_included5 this (add itemName (included5StarItems this))
  else if rarity =? 4 then set_included4 this (add itemName (included4StarItems this))
  else set_included3 this (add itemName (included3StarItems this)).

(** [items.forEach(item => set.add(item))] *)
Definition add_each (items : list string) (s : gset string) : gset string :=
  foldl (fun s item => add item s) s items.

(** [setBannerUpItems(banner)] *)
Definition setBannerUpItems (banner : Banner) (this : t) : t :=
  let this := set_selected5 this ∅ in
  let this := set_selected4 this ∅ in
  let this :=
    set_selected5 this
      (add_each (rate_up_5star (rate_up_items banner)) (selected5StarItems this)) in
  set_selected4 this
    (add_each (rate_up_4star (rate_up_items banner)) (selected4StarItems this)).

(** [setBannerIncludedItems(banner)] *)
Definition setBannerIncludedItems (banner : Banner) (this : t) : t :=
  let this := set_included5 this ∅ in
  let this := set_included4 this ∅ in
  let this := set_included3 this ∅ in
  let this :=
    set_included5 this
      (add_each (included_5star (included_items banner)) (included5StarItems this)) in
  let this :=
    set_included4 this
      (add_each (included_4star (included_items banner)) (included4StarItems this)) in
  set_included3 this
    (add_each (included_3star (included_items banner)) (included3StarItems this)).

(** [this.allItems.filter(item => item.rarity === rarity)] *)
Definition of_rarity (allItems : list Catalog.Item) (rarity : Z)
  : list Catalog.Item :=
  filter (fun item => Catalog.rarity item = rarity) allItems.

(** [items.forEach(item => set.add(item.name))] *)
Definition add_names (items : list Catalog.Item) (s : gset string) : gset string :=
  foldl (fun s item => add (Catalog.name item) s) s items.

(** [selectAllIncludedItems(rarity)] *)
Definition selectAllIncludedItems (allItems : list Catalog.Item) (rarity : Z)
    (this : t) : t :=
  let items := of_rarity allItems rarity in
  if rarity =? 5 then set_included5 this (add_names items (included5StarItems this))
  else if rarity =? 4 then set_included4 this (add_names items (included4StarItems this))
  else set_included3 this (add_names items (included3StarItems this)).

(** The test of the search filter on one item; [term] is already in
    lower case. *)
Definition matches (term : string) (item : Catalog.Item) : bool :=
  JsText.includes (JsText.toLowerCase (Catalog.name item)) term ||
  JsText.includes (JsText.toLowerCase (Catalog.type item)) term ||
  JsText.includes (JsText.toLowerCase (Catalog.affiliated_type item)) term.

(** [if (searchTerm) { items = items.filter(...) }]: the empty search
    term keeps every item. *)
Definition search (searchTerm : string) (items : list Catalog.Item)
  : list Catalog.Item :=
  if Js.is_empty searchTerm then items
  else
    let term := JsText.toLowerCase searchTerm in
    filter (fun item => matches term item = true) items.

(** [filterAvailableItems(rarity, searchTerm)]: the items offered by the
    UP dropdown. *)
Definition filterAvailableItems (allItems : list Catalog.Item) (rarity : Z)
    (searchTerm : string) (this : t) : list Catalog.Item :=
  let items := of_rarity allItems rarity in
  let items :=
    if rarity =? 5
    then filter (fun item => Catalog.name item ∈ included5StarItems this) items
    else filter (fun item => Catalog.name item ∈ included4StarItems this) items in
  let items := search searchTerm items in
  filter (fun item =>
            (if rarity =? 5
             then negb (has (Catalog.name item) (selected5StarItems this))
             else negb (has (Catalog.name item) (selected4StarItems this)))
            = true) items.

(** [filterIncludedItems(rarity, searchTerm)]: the items offered by the
    included-items dropdown. *)
Definition filterIncludedItems (allItems : list Catalog.Item) (rarity : Z)
    (searchTerm : string) (this : t) : list Catalog.Item :=
  let items := of_rarity allItems rarity in
  let items := search searchTerm items in
  filter (fun item =>
            (if rarity =? 5
             then negb (has (Catalog.name item) (included5StarItems this))
             else if rarity =? 4
             then negb (has (Catalog.name item) (included4StarItems this))
             else negb (has (Catalog.name item) (included3StarItems this)))
            = true) items.

(** [rarity === 5 ? this.selected5StarItems : this.selected4StarItems] *)
Definition selectedSet (rarity : Z) (this : t) : gset string :=
  if rarity =? 5 then selected5StarItems this else selected4StarItems this.

(** The set chosen by the [if] / [else if] / [else] on [rarity]. *)
Definition includedSet (rarity : Z) (this : t) : gset string :=
  if rarity =? 5 then included5StarItems this
  else if rarity =? 4 then included4StarItems this
  else included3StarItems this.

(** [getSelectedUpItems(rarity)] *)
Definition getSelectedUpItems (rarity : Z) (this : t) : string :=
  Js.join (elements (selectedSet rarity this)).

(** [getIncludedItems(rarity)] *)
Definition getIncludedItems (rarity : Z) (this : t) : string :=
  Js.join (elements (includedSet rarity this)).

(** [item.trim() !== ''] *)
Definition nonblank (item : string) : Prop :=
  Js.is_empty (Js.trim item) = false.

(** No item name held by the manager contains a comma. *)
Definition names_comma_free (this : t) : Prop :=
  forall rarity x,
    x ∈ selectedSet rarity this \/ x ∈ includedSet rarity this ->
    JsText.comma_free x = true.

End BannerManager.

(** ** [ConfigEditor] (ConfigEditor.tsx)

    The editor keeps a configuration in [formData] and saves it as it
    is ([onSave(formData)]); it has no check of its own.  Its
    [probability_settings] and [probability_progression] have the shape
    of the banner's (its [four_star_character_rate] stands where the
    banner has [_4star_role_rate]). *)

Module ConfigEditor.

(** [rarity: '5' | '4'] of [updateRate]. *)
Inductive RateInput := Rate5 | Rate4.

Definition set_base_5star_rate (p : ProbabilitySettings) (num : Q)
  : ProbabilitySettings :=
  {| base_5star_rate := num;
     base_4star_rate := base_4star_rate p;
     _4star_role_rate := _4star_role_rate p;
     base_3star_rate := base_3star_rate p;
     up_5star_rate := up_5star_rate p;
     up_4star_rate := up_4star_rate p |}.

Definition set_base_4star_rate (p : ProbabilitySettings) (num : Q)
  : ProbabilitySettings :=
  {| base_5star_rate := base_5star_rate p;
     base_4star_rate := num;
     _4star_role_rate := _4star_role_rate p;
     base_3star_rate := base_3star_rate p;
     up_5star_rate := up_5star_rate p;
     up_4star_rate := up_4star_rate p |}.

Definition set_base_3star_rate (p : ProbabilitySettings) (num : Q)
  : ProbabilitySettings :=
  {| base_5star_rate := base_5star_rate p;
     base_4star_rate := base_4star_rate p;
     _4star_role_rate := _4star_role_rate p;
     base_3star_rate := num;
     up_5star_rate := up_5star_rate p;
     up_4star_rate := up_4star_rate p |}.

(** [updateRate(rarity, value)] on [formData.probability_settings];
    [value] is what [parseFloat] returns on the typed percentage. *)
Definition updateRate (rarity : RateInput) (value : option Q)
    (p : ProbabilitySettings) : ProbabilitySettings :=
  let num := match value with Some n => n | None => 0%Q end in
  (* Convert to decimal *)
  let num := (num / 100)%Q in
  let currentOther :=
    match rarity with
    | Rate5 => base_4star_rate p
    | Rate4 => base_5star_rate p
    end in
  (* Ensure total rate doesn't exceed 1 *)
  let num := if Qltb 1 (num + currentOther) then (1 - currentOther)%Q else num in
  match rarity with
  | Rate5 => set_base_5star_rate p num
  | Rate4 => set_base_4star_rate p num
  end.

(** The effect that recomputes the 3-star rate after a change of the
    other two. *)
Definition derive_3star_rate (p : ProbabilitySettings) : ProbabilitySettings :=
  let s5 := base_5star_rate p in
  let s4 := base_4star_rate p in
  let s3 := Qmax 0 (1 - s5 - s4) in
  if Qltb (1 # 100000) (Qabs (base_3star_rate p - s3))
  then set_base_3star_rate p s3
  else p.

(** [field] and [value] of [updatePityBaseField]. *)
Inductive PityBaseField :=
| hard_pity_pull_field (value : Z)
| hard_pity_rate_field (value : Q).

Definition set_field (field : PityBaseField) (p : Progression) : Progression :=
  match field with
  | hard_pity_pull_field value =>
      {| hard_pity_pull := value; hard_pity_rate := hard_pity_rate p;
         soft_pity := soft_pity p |}
  | hard_pity_rate_field value =>
      {| hard_pity_pull := hard_pity_pull p; hard_pity_rate := value;
         soft_pity := soft_pity p |}
  end.

(** [updatePityBaseField(rarity, field, value)] on
    [formData.probability_progression]; [is_5star] tells ['5star'] from
    ['4star']. *)
Definition updatePityBaseField (is_5star : bool) (field : PityBaseField)
    (progression : ProgressionTable) : ProgressionTable :=
  if is_5star
  then {| progression_5star := set_field field (progression_5star progression);
          progression_4star := progression_4star progression |}
  else {| progression_5star := progression_5star progression;
          progression_4star := set_field field (progression_4star progression) |}.

(** The [onChange] of the hard-pity rate input: the typed percentage,
    [(parseFloat(value) || 0) / 100]. *)
Definition hard_pity_rate_input (is_5star : bool) (value : option Q)
    (progression : ProgressionTable) : ProgressionTable :=
  updatePityBaseField is_5star
    (hard_pity_rate_field (Js.or_zero value / 100)%Q) progression.

End ConfigEditor.

(** ** The random source

    A draw reads uniform samples of [[0,1)] from a source it does not own.
    The source is an infinite sequence of samples and a cursor; reading a
    sample advances the cursor.  A computation either fails or returns a
    value and the new cursor. *)

Module Rand.

Inductive Error := EmptyPoolError.

Definition M (A : Type) : Type := (nat -> Q) -> nat -> Error + (A * nat).

Definition ret {A} (a : A) : M A := fun _ cursor => inr (a, cursor).

Definition bind {A B} (m : M A) (k : A -> M B) : M B :=
  fun source cursor =>
    match m source cursor with
    | inl e => inl e
    | inr (a, cursor') => k a source cursor'
    end.

Definition fail {A} (e : Error) : M A := fun _ _ => inl e.

(** [random.random()] *)
Definition random : M Q := fun source cursor => inr (source cursor, S cursor).

End Rand.

#[global] Instance Rand_ret : MRet Rand.M := @Rand.ret.
#[global] Instance Rand_bind : MBind Rand.M := fun A B k m => Rand.bind m k.

(** ** The draw flow (gacha_flowchart.md) *)

Inductive Rarity := Star5 | Star4 | Star3.

#[global] Instance Rarity_eq_dec : EqDecision Rarity.
Proof. solve_decision. Defined.

(** The four values threaded through a draw: [pity_5star], [pity_4star],
    [_5star_guaranteed], [_4star_guaranteed]. *)
Record PityState := {
  pity_5star : Z;
  pity_4star : Z;
  _5star_guaranteed : bool;
  _4star_guaranteed : bool
}.

Definition initial_state : PityState :=
  {| pity_5star := 0; pity_4star := 0;
     _5star_guaranteed := false; _4star_guaranteed := false |}.

(** What a draw returns besides the new state: the item name of node
    AB, with the tier and the UP branch it was selected in. *)
Record DrawResult := {
  item : string;
  rarity : Rarity;
  is_rate_up : bool
}.

Module Engine.

Definition settings (b : Banner) := probability_settings b.
Definition progression5 (b : Banner) := progression_5star (probability_progression b).
Definition progression4 (b : Banner) := progression_4star (probability_progression b).

Fixpoint Qsum (l : list Q) : Q :=
  match l with
  | [] => 0
  | q :: rest => q + Qsum rest
  end.

(** Modelled from the spec: the bodies of [caculate_rate_5star] and
    [caculate_rate_4star] are not in the sources.  Section 4.1, step 1:
    the soft-pity intervals that count at a pull are those whose
    [start_pull] is at most that pull. *)
Definition started (pull : Z) (sp : list SoftPity) : list SoftPity :=
  filter (fun interval => start_pull interval <= pull) sp.

(** Modelled from the spec: section 4.1, step 1, the sum of the
    increments of the intervals that count at a pull. *)
Definition soft_pity_sum (sp : list SoftPity) (pull : Z) : Q :=
  Qsum (map increment (started pull sp)).

(** Modelled from the spec: section 4.1, step 1, the rate of a tier at a
    pull (the body of [caculate_rate_5star] / [caculate_rate_4star] is
    not in the sources): the base rate plus the soft-pity sum, and
    [hard_pity_rate] once the pull has reached [hard_pity_pull]. *)
Definition caculate_rate (base : Q) (p : Progression) (pull : Z) : Q :=
  if hard_pity_pull p <=? pull
  then hard_pity_rate p
  else base + soft_pity_sum (soft_pity p) pull.

(** Modelled from the spec: [caculate_rate_5star] of node C, as section
    4.1, step 1 describes it. *)
Definition caculate_rate_5star (b : Banner) (pull : Z) : Q :=
  caculate_rate (base_5star_rate (settings b)) (progression5 b) pull.

(** Modelled from the spec: [caculate_rate_4star] of node F, as section
    4.1, step 3 describes it (the analogous 4-star rate). *)
Definition caculate_rate_4star (b : Banner) (pull : Z) : Q :=
  caculate_rate (base_4star_rate (settings b)) (progression4 b) pull.

(** Modelled from the spec: section 4.1, edge cases: a rate above 1 is
    clamped to 1 before the comparison with the sample. *)
Definition clamp_rate (rate : Q) : Q := if Qltb 1 rate then 1 else rate.

(** Modelled from the spec: the test behind nodes J/K and V/W is not in
    the flowchart.  Section 4.1, step 2: with the guaranteed flag set
    the hit is a UP item; otherwise one more sample is compared with
    the tier's UP rate. *)
Definition check_up (guaranteed : bool) (up_rate : Q) : Rand.M bool :=
  if guaranteed then mret true
  else u ← Rand.random; mret (Qltb u up_rate).

(** Modelled from the spec: section 4.2, [select]: a uniform choice in a
    non-empty pool, [EmptyPoolError] on an empty one. *)
Definition select (pool : list string) : Rand.M string :=
  match pool with
  | [] => Rand.fail Rand.EmptyPoolError
  | first :: _ =>
      u ← Rand.random;
      let n := Z.of_nat (length pool) in
      let i := Z.to_nat (Qfloor (u * inject_Z n) mod n) in
      mret (nth i pool first)
  end.

Definition up_pool (b : Banner) (tier : Rarity) : list string :=
  match tier with
  | Star5 => rate_up_5star (rate_up_items b)
  | Star4 => rate_up_4star (rate_up_items b)
  | Star3 => []
  end.

Definition included_pool (b : Banner) (tier : Rarity) : list string :=
  match tier with
  | Star5 => included_5star (included_items b)
  | Star4 => included_4star (included_items b)
  | Star3 => included_3star (included_items b)
  end.

Definition non_up_pool (b : Banner) (tier : Rarity) : list string :=
  list_difference (included_pool b tier) (up_pool b tier).

(** Node H.  The pull being made is pull [pity_4star + 1] of the 4-star
    count (node F computes the 4-star rate at that number); it has
    reached the 4-star hard pity when that number is at least the 4-star
    [hard_pity_pull]. *)
Definition reached_4star_hard_pity (b : Banner) (st : PityState) : bool :=
  hard_pity_pull (progression4 b) <=? pity_4star st + 1.

(** Nodes E .. P: a 5-star hit.  Node I resets the 4-star count when
    node H finds the 4-star hard pity reached; the branch has no other
    update of that count. *)
Definition hit_5star (b : Banner) (st : PityState) : Rand.M (DrawResult * PityState) :=
  (* G *) let new_pity_5star := 0 in
  (* H, I *)
  let new_pity_4star :=
    if reached_4star_hard_pity b st then 0 else pity_4star st in
  (* J, K *)
  is_up ← check_up (_5star_guaranteed st) (up_5star_rate (settings b));
  if is_up : bool then
    (* L, N *)
    name ← select (up_pool b Star5);
    mret ({| item := name; rarity := Star5; is_rate_up := true |},
          {| pity_5star := new_pity_5star; pity_4star := new_pity_4star;
             _5star_guaranteed := false;
             _4star_guaranteed := _4star_guaranteed st |})
  else
    (* M, O *)
    name ← select (non_up_pool b Star5);
    mret ({| item := name; rarity := Star5; is_rate_up := false |},
          {| pity_5star := new_pity_5star; pity_4star := new_pity_4star;
             _5star_guaranteed := true;
             _4star_guaranteed := _4star_guaranteed st |}).

(** Nodes R .. AB: a 4-star hit. *)
Definition hit_4star (b : Banner) (st : PityState) : Rand.M (DrawResult * PityState) :=
  (* T *) let new_pity_4star := 0 in
  (* U *) let new_pity_5star := pity_5star st + 1 in
  (* V, W *)
  is_up ← check_up (_4star_guaranteed st) (up_4star_rate (settings b));
  if is_up : bool then
    (* X, Z *)
    name ← select (up_pool b Star4);
    mret ({| item := name; rarity := Star4; is_rate_up := true |},
          {| pity_5star := new_pity_5star; pity_4star := new_pity_4star;
             _5star_guaranteed := _5star_guaranteed st;
             _4star_guaranteed := false |})
  else
    (* Y, AA *)
    name ← select (non_up_pool b Star4);
    mret ({| item := name; rarity := Star4; is_rate_up := false |},
          {| pity_5star := new_pity_5star; pity_4star := new_pity_4star;
             _5star_guaranteed := _5star_guaranteed st;
             _4star_guaranteed := true |}).

(** Nodes S, AC: a 3-star result; both counts go up by one. *)
Definition hit_3star (b : Banner) (st : PityState) : Rand.M (DrawResult * PityState) :=
  name ← select (included_pool b Star3);
  mret ({| item := name; rarity := Star3; is_rate_up := false |},
        {| pity_5star := pity_5star st + 1; pity_4star := pity_4star st + 1;
           _5star_guaranteed := _5star_guaranteed st;
           _4star_guaranteed := _4star_guaranteed st |}).

(** One draw, nodes A .. AB. *)
Definition draw (b : Banner) (st : PityState) : Rand.M (DrawResult * PityState) :=
  (* B *) local_random ← Rand.random;
  (* C *) let rate_5star := caculate_rate_5star b (pity_5star st + 1) in
  (* D *)
  if Qltb local_random (clamp_rate rate_5star) then hit_5star b st
  else
    (* F *) let rate_4star := caculate_rate_4star b (pity_4star st + 1) in
    (* Q *)
    if Qltb local_random (clamp_rate rate_4star) then hit_4star b st
    else hit_3star b st.

(** Modelled from the spec: section 5, [drawBatch], which is not in the
    flowchart: [n] draws in sequence, each from the state the previous
    one left. *)
Fixpoint drawBatch (b : Banner) (st : PityState) (n : nat)
  : Rand.M (list DrawResult * PityState) :=
  match n with
  | O => mret ([], st)
  | S n' =>
      '(result, st') ← draw b st;
      '(results, st'') ← drawBatch b st' n';
      mret (result :: results, st'')
  end.

(** The guaranteed flag of a tier. *)
Definition guaranteed (tier : Rarity) (st : PityState) : bool :=
  match tier with
  | Star5 => _5star_guaranteed st
  | Star4 => _4star_guaranteed st
  | Star3 => false
  end.

Definition has_up (tier : Rarity) : Prop := tier = Star5 \/ tier = Star4.

(** Every pool a draw may select from holds an item. *)
Definition pools_stocked (b : Banner) : Prop :=
  up_pool b Star5 <> [] /\ non_up_pool b Star5 <> [] /\
  up_pool b Star4 <> [] /\ non_up_pool b Star4 <> [] /\
  included_pool b Star3 <> [].

End Engine.

(** ** Sample forms and manager states *)

Module Samples.
Import BannerManager.

(** The default banner of the editor: 0.8% / 6%, soft pity 74..79 at
    +6%, hard pity at pull 80 with rate 1. *)
Definition default_form : Form :=
  {| bannerName := "Standard Pool";
     base5StarRate := Some 0.008%Q;
     base4StarRate := Some 0.06%Q;
     up5StarRate := Some 0.5%Q;
     up4StarRate := Some 0.5%Q;
     hardPityPull := Some 80;
     hardPityRate := Some 1%Q;
     softPityEntries :=
       [ {| soft_pity_start := Some 74; soft_pity_end := Some 79;
            soft_pity_increment := Some 0.06%Q |} ] |}.


(** No 5-star item is included although the 5-star base rate is 1%. *)
Definition empty_5star_pool : t :=
  {| selected5StarItems := ∅; selected4StarItems := ∅;
     included5StarItems := ∅;
     included4StarItems := {[ "Sword" ]};
     included3StarItems := {[ "Stone" ]};
     form :=
       {| bannerName := "Empty";
          base5StarRate := Some 0.01%Q;
          base4StarRate := Some 0.06%Q;
          up5StarRate := Some 0.5%Q;
          up4StarRate := Some 0.5%Q;
          hardPityPull := Some 80;
          hardPityRate := Some 1%Q;
          softPityEntries := [] |} |}.

Definition full_5star_pool : t :=
  set_included5 empty_5star_pool {[ "Hero" ]}.





(** A 5-star UP item, "Ghost", that is not among the included items (a
    banner loaded for editing by [setBannerUpItems] and
    [setBannerIncludedItems] may be so). *)
Definition stale_up_item : t :=
  {| selected5StarItems := {[ "Hero"; "Ghost" ]};
     selected4StarItems := ∅;
     included5StarItems := {[ "Hero" ]};
     included4StarItems := ∅;
     included3StarItems := ∅;
     form := default_form |}.

(** UP sets inside the included sets. *)
Definition consistent_sets : t :=
  {| selected5StarItems := {[ "Hero" ]};
     selected4StarItems := {[ "Sword" ]};
     included5StarItems := {[ "Hero"; "Sage" ]};
     included4StarItems := {[ "Sword"; "Bow" ]};
     included3StarItems := {[ "Stone" ]};
     form := default_form |}.

(** Item sets with something in every pool a draw may select from. *)
Definition stocked (f : Form) : t :=
  {| selected5StarItems := {[ "Hero" ]};
     selected4StarItems := {[ "Sword" ]};
     included5StarItems := {[ "Hero"; "Sage" ]};
     included4StarItems := {[ "Sword"; "Bow" ]};
     included3StarItems := {[ "Stone" ]};
     form := f |}.

(** The default form with a hard-pity rate of one half. *)
Definition half_hard_pity : t :=
  stocked
    {| bannerName := "Half";
       base5StarRate := Some 0.008%Q;
       base4StarRate := Some 0.06%Q;
       up5StarRate := Some 0.5%Q;
       up4StarRate := Some 0.5%Q;
       hardPityPull := Some 80;
       hardPityRate := Some 0.5%Q;
       softPityEntries :=
         [ {| soft_pity_start := Some 74; soft_pity_end := Some 79;
              soft_pity_increment := Some 0.06%Q |} ] |}.

(** A soft-pity row with a negative increment. *)
Definition negative_increment : t :=
  stocked
    {| bannerName := "Negative";
       base5StarRate := Some 0.5%Q;
       base4StarRate := Some 0.25%Q;
       up5StarRate := Some 0.5%Q;
       up4StarRate := Some 0.5%Q;
       hardPityPull := Some 10;
       hardPityRate := Some 1%Q;
       softPityEntries :=
         [ {| soft_pity_start := Some 2; soft_pity_end := Some 3;
              soft_pity_increment := Some (- 0.25)%Q |} ] |}.

End Samples.

(** ** Sample banners, states and sample sequences for the draw flow *)

Module DrawSamples.

(** The samples of a list, then zeros. *)
Definition samples (l : list Q) : nat -> Q := fun i => nth i l 0%Q.

Definition banner_with (base5 : Q) (p5 : Progression) : Banner :=
  {| name := "Standard Pool";
     probability_settings :=
       {| base_5star_rate := base5;
          base_4star_rate := 0.06;
          _4star_role_rate := 0.06;
          base_3star_rate := 1 - base5 - 0.06;
          up_5star_rate := 0.5;
          up_4star_rate := 0.5 |};
     rate_up_items :=
       {| rate_up_5star := ["Hero"]; rate_up_4star := ["Sword"] |};
     included_items :=
       {| included_5star := ["Hero"; "Sage"];
          included_4star := ["Sword"; "Bow"];
          included_3star := ["Stone"] |};
     probability_progression :=
       {| progression_5star := p5;
          progression_4star :=
            {| hard_pity_pull := 10; hard_pity_rate := 1; soft_pity := [] |} |}
  |}.

(** Base rate 0.8%, soft pity 74..79 at +6%, hard pity at pull 80 with
    rate 1. *)
Definition default_banner : Banner :=
  banner_with 0.008
    {| hard_pity_pull := 80; hard_pity_rate := 1;
       soft_pity := [ {| start_pull := 74; end_pull := 79; increment := 0.06 |} ] |}.

(** Nine draws that miss both tiers (each reads 0.5 for the tier and 0.5
    for the selection), then a sample below the 5-star base rate. *)
Definition nine_misses_then_hit : nat -> Q :=
  samples (replicate 18 0.5%Q ++ [0.001; 0.3; 0.7]%Q).

Definition state_with (pity5 pity4 : Z) : PityState :=
  {| pity_5star := pity5; pity_4star := pity4;
     _5star_guaranteed := false; _4star_guaranteed := false |}.

End DrawSamples.

(** * Theorems *)

(** ** Rational comparisons *)

Lemma Qltb_lt (a b : Q) : Qltb a b = true <-> (a < b)%Q.
Proof.
  unfold Qltb. rewrite negb_true_iff. split.
  - intros H. apply Qnot_le_lt. intros Hle.
    apply Qle_bool_iff in Hle. congruence.
  - intros H. destruct (Qle_bool b a) eqn:E; [|reflexivity].
    apply Qle_bool_iff in E. exfalso. exact (Qlt_not_le _ _ H E).
Qed.

Lemma Qltb_ge (a b : Q) : Qltb a b = false <-> (b <= a)%Q.
Proof.
  unfold Qltb. rewrite negb_false_iff. apply Qle_bool_iff.
Qed.

(** ** The editor's rate inputs *)

Module ConfigEditorFacts.
Import ConfigEditor.

(** After [updateRate] the two base rates sum to at most 1. *)
Lemma updateRate_sum_at_most_one (rarity : RateInput) (value : option Q)
    (p : ProbabilitySettings) :
  (base_5star_rate (updateRate rarity value p)
   + base_4star_rate (updateRate rarity value p) <= 1)%Q.
Proof.
  unfold updateRate.
  set (num := (match value with Some n => n | None => 0 end / 100)%Q).
  destruct rarity; simpl.
  - destruct (Qltb 1 (num + base_4star_rate p)) eqn:E.
    + apply Qle_lteq. right. ring.
    + apply Qltb_ge in E. exact E.
  - destruct (Qltb 1 (num + base_5star_rate p)) eqn:E.
    + apply Qle_lteq. right. ring.
    + apply Qltb_ge in E. rewrite Qplus_comm. exact E.
Qed.

(** [updateRate] has no lower bound: typing -5 gives a base rate of
    -0.05. *)
Lemma updateRate_negative_rate :
  (base_5star_rate
     (updateRate Rate5 (Some (-5)%Q)
        (probability_settings DrawSamples.default_banner)) < 0)%Q.
Proof. reflexivity. Qed.

(** The hard-pity rate input stores the typed percentage, whatever it
    is. *)
Lemma hard_pity_rate_input_stores (value : Q) (progression : ProgressionTable) :
  hard_pity_rate
    (progression_5star (hard_pity_rate_input true (Some value) progression))
  = (value / 100)%Q.
Proof. reflexivity. Qed.

End ConfigEditorFacts.

(** ** [validateForm] *)

Module ValidationFacts.
Import BannerManager.

Lemma check_soft_pity_inr entries : forall i m m',
  check_soft_pity entries i m = inr m' ->
  Forall row_ok entries /\ m <= m' /\
  (forall entry e, entry ∈ entries -> soft_pity_end entry = Some e -> e <= m').
Proof.
  induction entries as [|entry rest IH]; intros i m m' H; simpl in H.
  - inversion H; subst. repeat split; [constructor | lia |].
    intros entry e Hin. inversion Hin.
  - destruct (Js.geb (soft_pity_start entry) (soft_pity_end entry)) eqn:Hrow;
      [discriminate|].
    apply IH in H as (Hall & Hle & Hends).
    split; [constructor; assumption|].
    destruct (soft_pity_end entry) as [e0|] eqn:Hend; simpl in Hle, Hends.
    + destruct (Z.ltb_spec m e0).
      * split; [lia|]. intros entry' e Hin He.
        apply elem_of_cons in Hin as [->|Hin].
        -- rewrite Hend in He. inversion He; subst. lia.
        -- eauto.
      * split; [lia|]. intros entry' e Hin He.
        apply elem_of_cons in Hin as [->|Hin].
        -- rewrite Hend in He. inversion He; subst. lia.
        -- eauto.
    + split; [lia|]. intros entry' e Hin He.
      apply elem_of_cons in Hin as [->|Hin]; [congruence | eauto].
Qed.


Lemma check_soft_pity_inl entries : forall i m entry s e,
  entry ∈ entries ->
  soft_pity_start entry = Some s -> soft_pity_end entry = Some e -> e <= s ->
  exists a, check_soft_pity entries i m = inl a.
Proof.
  intros i m entry s e Hin Hs He Hle.
  destruct (check_soft_pity entries i m) as [a|m'] eqn:H; [eauto|].
  apply check_soft_pity_inr in H as (Hall & _ & _).
  rewrite Forall_forall in Hall. specialize (Hall _ Hin).
  unfold row_ok in Hall. rewrite Hs, He in Hall. simpl in Hall.
  apply Z.leb_gt in Hall. lia.
Qed.

(** The rate-sum of [validateForm] is 1 whatever the two inputs are. *)
Lemma totalRate_is_one (base5Star base4Star : Q) :
  (base5Star + base4Star + (1 - base5Star - base4Star) == 1)%Q.
Proof. ring. Qed.




End ValidationFacts.

Module SaveFacts.
Import BannerManager.

(** Case analysis on the numbers [banner_of_form] reads, for a goal with
    a hypothesis that the banner was built: only the case where each is
    a proper number remains. *)
Ltac form_numbers this :=
  destruct (base5StarRate (form this)); [|discriminate];
  destruct (base4StarRate (form this)); [|discriminate];
  destruct (up5StarRate (form this)); [|discriminate];
  destruct (up4StarRate (form this)); [|discriminate];
  destruct (hardPityPull (form this)); [|discriminate];
  destruct (hardPityRate (form this)); [|discriminate];
  destruct (mapM soft_pity_of_entry (softPityEntries (form this)));
    [|discriminate].

Lemma saveBanner_Some (this : t) (b : Banner) :
  saveBanner this = Some b <->
  validateForm this = inr tt /\ banner_of_form this = Some b.
Proof.
  unfold saveBanner. destruct (validateForm this) as [a|[]].
  - split; [discriminate | intros [? _]; discriminate].
  - split; [auto | intros [_ ?]; assumption].
Qed.


(** The item lists of a built banner are those of the manager's sets. *)
Lemma banner_of_form_pools (this : t) (b : Banner) :
  banner_of_form this = Some b ->
  rate_up_5star (rate_up_items b) = item_list (selected5StarItems this) /\
  rate_up_4star (rate_up_items b) = item_list (selected4StarItems this) /\
  included_5star (included_items b) = item_list (included5StarItems this) /\
  included_4star (included_items b) = item_list (included4StarItems this) /\
  included_3star (included_items b) = item_list (included3StarItems this).
Proof.
  unfold banner_of_form. intros H.
  form_numbers this.
  simpl in H. inversion H; subst; simpl. repeat split.
Qed.

(** A banner is built exactly when every number of the form is a proper
    number. *)
Lemma banner_of_form_is_Some (this : t) :
  is_Some (banner_of_form this) <->
  is_Some (base5StarRate (form this)) /\
  is_Some (base4StarRate (form this)) /\
  is_Some (up5StarRate (form this)) /\
  is_Some (up4StarRate (form this)) /\
  is_Some (hardPityPull (form this)) /\
  is_Some (hardPityRate (form this)) /\
  is_Some (mapM soft_pity_of_entry (softPityEntries (form this))).
Proof.
  unfold banner_of_form.
  destruct (base5StarRate (form this)) as [b5|];
    [|simpl; split; [intros [? ?]; discriminate
                    | intros ([? ?] & _); discriminate]].
  destruct (base4StarRate (form this)) as [b4|];
    [|simpl; split; [intros [? ?]; discriminate
                    | intros (_ & [? ?] & _); discriminate]].
  destruct (up5StarRate (form this)) as [u5|];
    [|simpl; split; [intros [? ?]; discriminate
                    | intros (_ & _ & [? ?] & _); discriminate]].
  destruct (up4StarRate (form this)) as [u4|];
    [|simpl; split; [intros [? ?]; discriminate
                    | intros (_ & _ & _ & [? ?] & _); discriminate]].
  destruct (hardPityPull (form this)) as [hp|];
    [|simpl; split; [intros [? ?]; discriminate
                    | intros (_ & _ & _ & _ & [? ?] & _); discriminate]].
  destruct (hardPityRate (form this)) as [hr|];
    [|simpl; split; [intros [? ?]; discriminate
                    | intros (_ & _ & _ & _ & _ & [? ?] & _); discriminate]].
  destruct (mapM soft_pity_of_entry (softPityEntries (form this))) as [sp|];
    [|simpl; split; [intros [? ?]; discriminate
                    | intros (_ & _ & _ & _ & _ & _ & [? ?]); discriminate]].
  simpl. split; [|intros _; eexists; reflexivity].
  intros _. repeat split; eexists; reflexivity.
Qed.


End SaveFacts.

Module ValidationClaims.
Import BannerManager ValidationFacts SaveFacts Samples.

(** C5, as stated, fails: a form whose included 5-star set is empty
    while the 5-star base rate is 0.01 is accepted by [validateForm],
    and [saveBanner] posts a banner with an empty 5-star pool. *)
Lemma empty_5star_pool_is_accepted :
  included5StarItems empty_5star_pool = ∅ /\
  validateForm empty_5star_pool = inr tt /\
  exists b, saveBanner empty_5star_pool = Some b /\
    included_5star (included_items b) = [] /\
    (0 < base_5star_rate (probability_settings b))%Q.
Proof.
  split; [reflexivity|]. split; [vm_compute; reflexivity|].
  eexists. split; [vm_compute; reflexivity|].
  split; [reflexivity | reflexivity].
Qed.

(** C5 (amended).  [validateForm] has no pool check.  Its verdict
    depends on the form inputs only: two manager states with the same
    form inputs get the same verdict and post a banner or not alike,
    whatever their included and UP item sets are.  When the included
    5-star set is empty, the banner that is posted has an empty 5-star
    pool. *)
Theorem validateForm_ignores_item_sets (this this' : t)
    (Hform : form this = form this') :
  validateForm this = validateForm this' /\
  (is_Some (saveBanner this) <-> is_Some (saveBanner this')) /\
  (included5StarItems this = ∅ ->
   forall b, saveBanner this = Some b -> included_5star (included_items b) = []).
Proof.
  assert (Hv : validateForm this = validateForm this')
    by (unfold validateForm; rewrite Hform; reflexivity).
  split; [exact Hv|]. split.
  - unfold saveBanner. rewrite Hv.
    destruct (validateForm this') as [a|[]]; [reflexivity|].
    rewrite !banner_of_form_is_Some, Hform. reflexivity.
  - intros Hempty b Hb. apply saveBanner_Some in Hb as [_ Hb].
    apply banner_of_form_pools in Hb as (_ & _ & -> & _).
    rewrite Hempty. unfold item_list. rewrite elements_empty. reflexivity.
Qed.

Lemma validateForm_ignores_item_sets_witness :
  form empty_5star_pool = form full_5star_pool /\
  validateForm empty_5star_pool = validateForm full_5star_pool /\
  (is_Some (saveBanner empty_5star_pool) <-> is_Some (saveBanner full_5star_pool)).
Proof.
  split; [reflexivity|].
  destruct (validateForm_ignores_item_sets empty_5star_pool full_5star_pool)
    as (Hv & Hsave & _); [reflexivity|].
  split; assumption.
Defined.




End ValidationClaims.

Module PityValidationClaims.
Import BannerManager ValidationFacts SaveFacts Samples.






End PityValidationClaims.

(** ** The item sets of the banner form *)

Module ItemSetFacts.
Import BannerManager.

Lemma delete_each_difference (items : list string) :
  forall selected : gset string,
  delete_each items selected = selected ∖ list_to_set items.
Proof.
  unfold delete_each, delete.
  induction items as [|item rest IH]; intros selected; simpl.
  - apply set_eq. intros x. rewrite elem_of_difference.
    split; [intros Hx; split; [assumption | apply not_elem_of_empty] | tauto].
  - rewrite IH. apply set_eq. intros x.
    rewrite !elem_of_difference, elem_of_union, elem_of_singleton. tauto.
Qed.

Lemma delete_present_difference (removedItems : list string) :
  forall selected : gset string,
  delete_present removedItems selected = selected ∖ list_to_set removedItems.
Proof.
  unfold delete_present, delete.
  induction removedItems as [|item rest IH]; intros selected; simpl.
  - apply set_eq. intros x. rewrite elem_of_difference.
    split; [intros Hx; split; [assumption | apply not_elem_of_empty] | tauto].
  - rewrite IH. apply set_eq. intros x.
    destruct (decide (item ∈ selected)) as [Hin|Hout];
      rewrite !elem_of_difference, elem_of_union, ?elem_of_singleton.
    + tauto.
    + split; [|tauto].
      intros [Hx Hrest]. split; [assumption|].
      intros [->|Hr]; [exact (Hout Hx) | exact (Hrest Hr)].
Qed.

Lemma elem_of_invalid_items (selected included : gset string) (item : string) :
  item ∈ invalid_items selected included <->
  item ∈ selected /\ item ∉ included.
Proof.
  unfold invalid_items. rewrite list_elem_of_filter, elem_of_elements. tauto.
Qed.

(** One tier of [validateUpItems]: what stays selected is what is also
    included. *)
Lemma repair_tier (selected included : gset string) :
  (if 0 <? Z.of_nat (length (invalid_items selected included))
   then delete_each (invalid_items selected included) selected
   else selected)
  = selected ∩ included.
Proof.
  destruct (invalid_items selected included) as [|item rest] eqn:E.
  - simpl. apply set_eq. intros x. rewrite elem_of_intersection.
    split; [|tauto]. intros Hx. split; [assumption|].
    destruct (decide (x ∈ included)) as [|Hout]; [assumption|].
    assert (Hin : x ∈ invalid_items selected included)
      by (apply elem_of_invalid_items; auto).
    rewrite E in Hin. inversion Hin.
  - replace (0 <? Z.of_nat (length (item :: rest))) with true
      by (symmetry; apply Z.ltb_lt; simpl; lia).
    rewrite <- E, delete_each_difference.
    apply set_eq. intros x.
    rewrite elem_of_difference, elem_of_intersection, elem_of_list_to_set,
      elem_of_invalid_items.
    destruct (decide (x ∈ included)); tauto.
Qed.

Lemma validateUpItems_selected5 (this : t) :
  selected5StarItems (validateUpItems this)
  = selected5StarItems this ∩ included5StarItems this.
Proof.
  rewrite <- (repair_tier (selected5StarItems this) (included5StarItems this)).
  unfold validateUpItems. cbv zeta.
  destruct (0 <? Z.of_nat (length (invalid_items (selected5StarItems this)
                                                 (included5StarItems this))));
    match goal with |- context [if ?c then _ else _] => destruct c end;
    reflexivity.
Qed.

Lemma validateUpItems_selected4 (this : t) :
  selected4StarItems (validateUpItems this)
  = selected4StarItems this ∩ included4StarItems this.
Proof.
  rewrite <- (repair_tier (selected4StarItems this) (included4StarItems this)).
  unfold validateUpItems. cbv zeta.
  destruct (0 <? Z.of_nat (length (invalid_items (selected5StarItems this)
                                                 (included5StarItems this))));
    simpl; match goal with |- context [if ?c then _ else _] => destruct c end;
    reflexivity.
Qed.

Lemma validateUpItems_included (this : t) :
  included5StarItems (validateUpItems this) = included5StarItems this /\
  included4StarItems (validateUpItems this) = included4StarItems this.
Proof.
  unfold validateUpItems. cbv zeta.
  destruct (0 <? Z.of_nat (length (invalid_items (selected5StarItems this)
                                                 (included5StarItems this))));
    match goal with |- context [if ?c then _ else _] => destruct c end;
    split; reflexivity.
Qed.

Lemma remove_preserves (item : string) (selected included : gset string) :
  selected ⊆ included -> delete item selected ⊆ delete item included.
Proof.
  unfold delete. intros Hsub x. rewrite !elem_of_difference.
  intros [Hx Hne]. split; [apply Hsub; assumption | assumption].
Qed.

(** A selected item that is not the removed one stays included. *)
Lemma remove_absent_preserves (item : string) (selected included : gset string) :
  item ∉ selected -> selected ⊆ included -> selected ⊆ delete item included.
Proof.
  unfold delete. intros Hout Hsub x Hx.
  rewrite elem_of_difference, elem_of_singleton.
  split; [apply Hsub; exact Hx | intros ->; exact (Hout Hx)].
Qed.

Lemma removeIncludedItem_preserves (this : t) (itemName : string) (rarity : Z) :
  up_within_included this ->
  up_within_included (removeIncludedItem itemName rarity this).
Proof.
  intros [H5 H4]. unfold removeIncludedItem.
  destruct (rarity =? 5).
  - simpl. destruct (decide (itemName ∈ selected5StarItems this)) as [Hin|Hout];
      (split; simpl; [|exact H4]).
    + apply remove_preserves. exact H5.
    + apply remove_absent_preserves; assumption.
  - destruct (rarity =? 4).
    + simpl. destruct (decide (itemName ∈ selected4StarItems this)) as [Hin|Hout];
        (split; simpl; [exact H5|]).
      * apply remove_preserves. exact H4.
      * apply remove_absent_preserves; assumption.
    + split; simpl; assumption.
Qed.

Lemma delete_present_elements (selected included : gset string) :
  delete_present (elements included) selected = selected ∖ included.
Proof.
  rewrite delete_present_difference. apply set_eq. intros x.
  rewrite !elem_of_difference, elem_of_list_to_set, elem_of_elements. tauto.
Qed.

Lemma clearAllIncludedItems_preserves (this : t) (rarity : Z) :
  up_within_included this ->
  up_within_included (clearAllIncludedItems rarity this).
Proof.
  intros [H5 H4]. unfold clearAllIncludedItems.
  destruct (rarity =? 5).
  - split; simpl; [|exact H4]. rewrite delete_present_elements.
    intros x. rewrite elem_of_difference.
    intros [Hx Hn]. exfalso. exact (Hn (H5 x Hx)).
  - destruct (rarity =? 4).
    + split; simpl; [exact H5|]. rewrite delete_present_elements.
      intros x. rewrite elem_of_difference.
      intros [Hx Hn]. exfalso. exact (Hn (H4 x Hx)).
    + split; simpl; assumption.
Qed.

End ItemSetFacts.

Module ItemSetClaims.
Import BannerManager ItemSetFacts Samples.

(** C10, as stated, fails: with a 5-star UP item that is not included
    ("Ghost"), removing another item from the included 5-star set leaves
    "Ghost" in the UP set, which is then no subset of the included
    set. *)
Lemma stale_up_item_survives_removal :
  ("Ghost" ∈ selected5StarItems (removeIncludedItem "Hero" 5 stale_up_item)) /\
  ("Ghost" ∉ included5StarItems (removeIncludedItem "Hero" 5 stale_up_item)) /\
  ~ up_within_included (removeIncludedItem "Hero" 5 stale_up_item) /\
  ~ up_within_included (clearAllIncludedItems 5 stale_up_item).
Proof.
  assert (Hin : "Ghost" ∈ selected5StarItems (removeIncludedItem "Hero" 5 stale_up_item))
    by (vm_compute; reflexivity).
  assert (Hout : "Ghost" ∉ included5StarItems (removeIncludedItem "Hero" 5 stale_up_item))
    by (vm_compute; discriminate).
  assert (Hin' : "Ghost" ∈ selected5StarItems (clearAllIncludedItems 5 stale_up_item))
    by (vm_compute; reflexivity).
  assert (Hout' : "Ghost" ∉ included5StarItems (clearAllIncludedItems 5 stale_up_item))
    by (vm_compute; discriminate).
  repeat split; try assumption.
  - intros [H5 _]. exact (Hout (H5 _ Hin)).
  - intros [H5 _]. exact (Hout' (H5 _ Hin')).
Qed.

(** C10 (amended).  The containment of the UP sets in the included sets
    is kept by repair, not by rejection.  [removeIncludedItem] deletes
    the item from the included set and from the UP set of its tier;
    [clearAllIncludedItems] empties the included set of the tier and
    deletes its former members from the tier's UP set;
    [validateUpItems] keeps in each UP set exactly the items that are
    included.  Hence the containment holds after [validateUpItems] from
    any state, and the two removals preserve it: it holds after them
    whenever it held before. *)
Theorem up_items_repaired (this : t) (itemName : string) (rarity : Z) :
  (rarity = 5 ->
     (itemName ∉ included5StarItems (removeIncludedItem itemName rarity this)) /\
     (itemName ∉ selected5StarItems (removeIncludedItem itemName rarity this))) /\
  (rarity = 4 ->
     (itemName ∉ included4StarItems (removeIncludedItem itemName rarity this)) /\
     (itemName ∉ selected4StarItems (removeIncludedItem itemName rarity this))) /\
  (rarity = 5 ->
     included5StarItems (clearAllIncludedItems rarity this) = ∅ /\
     selected5StarItems (clearAllIncludedItems rarity this)
     = selected5StarItems this ∖ included5StarItems this) /\
  (rarity = 4 ->
     included4StarItems (clearAllIncludedItems rarity this) = ∅ /\
     selected4StarItems (clearAllIncludedItems rarity this)
     = selected4StarItems this ∖ included4StarItems this) /\
  (selected5StarItems (validateUpItems this)
   = selected5StarItems this ∩ included5StarItems this /\
   selected4StarItems (validateUpItems this)
   = selected4StarItems this ∩ included4StarItems this) /\
  up_within_included (validateUpItems this) /\
  (up_within_included this ->
   up_within_included (removeIncludedItem itemName rarity this)) /\
  (up_within_included this ->
   up_within_included (clearAllIncludedItems rarity this)).
Proof.
  assert (Hnotin : forall s : gset string, itemName ∉ delete itemName s).
  { intros s. unfold delete. rewrite elem_of_difference, elem_of_singleton. tauto. }
  repeat apply conj.
  - intros ->. unfold removeIncludedItem. simpl.
    destruct (decide _) as [|Hout]; simpl;
      (split; [apply Hnotin|]); [apply Hnotin | exact Hout].
  - intros ->. unfold removeIncludedItem. simpl.
    destruct (decide _) as [|Hout]; simpl;
      (split; [apply Hnotin|]); [apply Hnotin | exact Hout].
  - intros ->. split; [reflexivity|]. simpl. apply delete_present_elements.
  - intros ->. split; [reflexivity|]. simpl. apply delete_present_elements.
  - apply validateUpItems_selected5.
  - apply validateUpItems_selected4.
  - rewrite validateUpItems_selected5.
    rewrite (proj1 (validateUpItems_included this)).
    intros x. rewrite elem_of_intersection. tauto.
  - rewrite validateUpItems_selected4.
    rewrite (proj2 (validateUpItems_included this)).
    intros x. rewrite elem_of_intersection. tauto.
  - apply removeIncludedItem_preserves.
  - apply clearAllIncludedItems_preserves.
Qed.

Lemma up_items_repaired_witness :
  up_within_included consistent_sets /\
  up_within_included (removeIncludedItem "Hero" 5 consistent_sets) /\
  up_within_included (clearAllIncludedItems 5 consistent_sets) /\
  ("Hero" ∉ selected5StarItems (removeIncludedItem "Hero" 5 consistent_sets)).
Proof.
  assert (Hinv : up_within_included consistent_sets).
  { split; intros x; simpl;
      rewrite elem_of_singleton, elem_of_union, !elem_of_singleton; tauto. }
  destruct (up_items_repaired consistent_sets "Hero" 5)
    as (Hremove & _ & _ & _ & _ & _ & Hkeep & Hclear).
  split; [exact Hinv|].
  split; [exact (Hkeep Hinv)|].
  split; [exact (Hclear Hinv)|].
  exact (proj2 (Hremove eq_refl)).
Defined.

End ItemSetClaims.

(** ** The draw flow: inversion lemmas *)

Module DrawFacts.
Import Engine.

(** Unfolds the operations of the random-source monad. *)
Ltac unfold_rand :=
  unfold mbind, Rand_bind, Rand.bind, Rand.random, mret, Rand_ret, Rand.ret.

Lemma bind_inr {A B} (m : Rand.M A) (k : A -> Rand.M B) source cursor y cursor'' :
  (m ≫= k) source cursor = inr (y, cursor'') ->
  exists a cursor', m source cursor = inr (a, cursor') /\
                    k a source cursor' = inr (y, cursor'').
Proof.
  unfold_rand.
  destruct (m source cursor) as [e|[a cursor']]; [discriminate|]. eauto.
Qed.

Lemma nth_default_elem (l : list string) (d : string) (i : nat) :
  d ∈ l -> nth i l d ∈ l.
Proof.
  intros Hd. destruct (nth_in_or_default i l d) as [Hin|E].
  - apply list_elem_of_In. exact Hin.
  - rewrite E. exact Hd.
Qed.

Lemma select_inr (pool : list string) source cursor chosen cursor' :
  select pool source cursor = inr (chosen, cursor') ->
  chosen ∈ pool /\ cursor' = S cursor.
Proof.
  destruct pool as [|first rest]; [discriminate|].
  unfold select. unfold_rand.
  intros [= <- <-]. split; [|reflexivity].
  match goal with
  | |- context [Z.to_nat ?z] =>
      exact (nth_default_elem (first :: rest) first (Z.to_nat z)
                              (list_elem_of_here first rest))
  end.
Qed.

Lemma select_nonempty (pool : list string) source cursor :
  pool <> [] -> exists chosen, select pool source cursor = inr (chosen, S cursor).
Proof.
  destruct pool as [|first rest]; [congruence|]. intros _.
  unfold select. unfold_rand.
  eauto.
Qed.

Lemma check_up_inr (guaranteed : bool) (up_rate : Q) source cursor is_up cursor' :
  check_up guaranteed up_rate source cursor = inr (is_up, cursor') ->
  (guaranteed = true -> is_up = true) /\
  cursor' = (if guaranteed then cursor else S cursor).
Proof.
  unfold check_up. destruct guaranteed.
  - intros H. inversion H; subst. auto.
  - unfold_rand.
    intros H. inversion H; subst. split; [discriminate | reflexivity].
Qed.

Lemma check_up_total (guaranteed : bool) (up_rate : Q) source cursor :
  exists is_up, check_up guaranteed up_rate source cursor
                = inr (is_up, if guaranteed then cursor else S cursor).
Proof.
  unfold check_up. destruct guaranteed; [eexists; reflexivity|].
  unfold_rand. eauto.
Qed.

(** What a 5-star hit returns. *)
Lemma hit_5star_inr b st source cursor result st' cursor' :
  hit_5star b st source cursor = inr (result, st', cursor') ->
  rarity result = Star5 /\
  pity_5star st' = 0 /\
  pity_4star st' = (if reached_4star_hard_pity b st then 0 else pity_4star st) /\
  _5star_guaranteed st' = negb (is_rate_up result) /\
  _4star_guaranteed st' = _4star_guaranteed st /\
  (_5star_guaranteed st = true -> is_rate_up result = true) /\
  cursor' = (if _5star_guaranteed st then 1 + cursor else 2 + cursor)%nat.
Proof.
  unfold hit_5star. intros H.
  apply bind_inr in H as (is_up & c1 & Hup & H).
  apply check_up_inr in Hup as [Hforced ->].
  destruct is_up;
    apply bind_inr in H as (chosen & c2 & Hsel & H);
    apply select_inr in Hsel as [_ ->];
    inversion H; subst; simpl;
    (repeat split; try reflexivity; try assumption);
    destruct (_5star_guaranteed st); reflexivity.
Qed.

(** What a 4-star hit returns. *)
Lemma hit_4star_inr b st source cursor result st' cursor' :
  hit_4star b st source cursor = inr (result, st', cursor') ->
  rarity result = Star4 /\
  pity_5star st' = pity_5star st + 1 /\
  pity_4star st' = 0 /\
  _5star_guaranteed st' = _5star_guaranteed st /\
  _4star_guaranteed st' = negb (is_rate_up result) /\
  (_4star_guaranteed st = true -> is_rate_up result = true) /\
  cursor' = (if _4star_guaranteed st then 1 + cursor else 2 + cursor)%nat.
Proof.
  unfold hit_4star. intros H.
  apply bind_inr in H as (is_up & c1 & Hup & H).
  apply check_up_inr in Hup as [Hforced ->].
  destruct is_up;
    apply bind_inr in H as (chosen & c2 & Hsel & H);
    apply select_inr in Hsel as [_ ->];
    inversion H; subst; simpl;
    (repeat split; try reflexivity; try assumption);
    destruct (_4star_guaranteed st); reflexivity.
Qed.

(** What a 3-star result returns. *)
Lemma hit_3star_inr b st source cursor result st' cursor' :
  hit_3star b st source cursor = inr (result, st', cursor') ->
  rarity result = Star3 /\
  pity_5star st' = pity_5star st + 1 /\
  pity_4star st' = pity_4star st + 1 /\
  _5star_guaranteed st' = _5star_guaranteed st /\
  _4star_guaranteed st' = _4star_guaranteed st /\
  cursor' = (1 + cursor)%nat.
Proof.
  unfold hit_3star. intros H.
  apply bind_inr in H as (chosen & c2 & Hsel & H).
  apply select_inr in Hsel as [_ ->].
  inversion H; subst; simpl. repeat split.
Qed.

(** The branch of [draw] taken on the sample read at the cursor. *)
Lemma draw_unfold b st source cursor :
  draw b st source cursor =
  (if Qltb (source cursor) (clamp_rate (caculate_rate_5star b (pity_5star st + 1)))
   then hit_5star b st source (S cursor)
   else if Qltb (source cursor)
                (clamp_rate (caculate_rate_4star b (pity_4star st + 1)))
   then hit_4star b st source (S cursor)
   else hit_3star b st source (S cursor)).
Proof.
  unfold draw. unfold_rand.
  repeat match goal with |- context [if ?c then _ else _] => destruct c end;
    reflexivity.
Qed.

Lemma hit_5star_total b st source cursor :
  up_pool b Star5 <> [] -> non_up_pool b Star5 <> [] ->
  exists result st' cursor',
    hit_5star b st source cursor = inr (result, st', cursor').
Proof.
  intros Hup Hnon. unfold hit_5star.
  destruct (check_up_total (_5star_guaranteed st) (up_5star_rate (settings b))
              source cursor) as [is_up Hc].
  unfold_rand. rewrite Hc.
  destruct is_up.
  - destruct (select_nonempty _ source
               (if _5star_guaranteed st then cursor else S cursor) Hup) as [c Hs].
    rewrite Hs. eauto.
  - destruct (select_nonempty _ source
               (if _5star_guaranteed st then cursor else S cursor) Hnon) as [c Hs].
    rewrite Hs. eauto.
Qed.

End DrawFacts.

Module DrawTotal.
Import Engine DrawFacts.

Lemma hit_4star_total b st source cursor :
  up_pool b Star4 <> [] -> non_up_pool b Star4 <> [] ->
  exists result st' cursor',
    hit_4star b st source cursor = inr (result, st', cursor').
Proof.
  intros Hup Hnon. unfold hit_4star.
  destruct (check_up_total (_4star_guaranteed st) (up_4star_rate (settings b))
              source cursor) as [is_up Hc].
  unfold_rand. rewrite Hc.
  destruct is_up.
  - destruct (select_nonempty _ source
               (if _4star_guaranteed st then cursor else S cursor) Hup) as [c Hs].
    rewrite Hs. eauto.
  - destruct (select_nonempty _ source
               (if _4star_guaranteed st then cursor else S cursor) Hnon) as [c Hs].
    rewrite Hs. eauto.
Qed.

Lemma hit_3star_total b st source cursor :
  included_pool b Star3 <> [] ->
  exists result st' cursor',
    hit_3star b st source cursor = inr (result, st', cursor').
Proof.
  intros Hpool. unfold hit_3star.
  destruct (select_nonempty _ source cursor Hpool) as [c Hs].
  unfold_rand. rewrite Hs. eauto.
Qed.

(** With stocked pools a draw returns a result from every state and on
    every sample sequence. *)
Lemma draw_total b st source cursor :
  pools_stocked b ->
  exists result st' cursor', draw b st source cursor = inr (result, st', cursor').
Proof.
  intros (U5 & N5 & U4 & N4 & I3). rewrite draw_unfold.
  destruct (Qltb _ _); [apply hit_5star_total; assumption|].
  destruct (Qltb _ _); [apply hit_4star_total; assumption|].
  apply hit_3star_total; assumption.
Qed.

Lemma drawBatch_total b n : forall st source cursor,
  pools_stocked b ->
  exists results st' cursor',
    drawBatch b st n source cursor = inr (results, st', cursor') /\
    length results = n.
Proof.
  induction n as [|n IH]; intros st source cursor Hp; simpl.
  - exists [], st, cursor. split; reflexivity.
  - destruct (draw_total b st source cursor Hp) as (r & st1 & c1 & Hd).
    destruct (IH st1 source c1 Hp) as (rs & st2 & c2 & Hb & Hlen).
    exists (r :: rs), st2, c2.
    unfold mbind, Rand_bind, Rand.bind. rewrite Hd, Hb.
    split; [reflexivity | simpl; congruence].
Qed.

End DrawTotal.

(** ** Counters and the tier sample *)

Module CounterClaims.
Import Engine DrawFacts DrawSamples.

(** C1, as stated, fails: with the 4-star count at the 4-star hard pity
    (10), a 5-star hit returns a 4-star count of 0, not 10.  The same
    happens on the tenth draw of a run from the initial state whose
    first nine results are 3-star: the 5-star hit finds the 4-star
    count at 9 and leaves it at 0. *)
Lemma five_star_hit_resets_4star_count :
  (exists result st',
     draw default_banner (state_with 0 10) (samples [0.001; 0.3; 0.7]%Q) 0%nat
     = inr (result, st', 3%nat) /\
     rarity result = Star5 /\
     pity_4star (state_with 0 10) = 10 /\
     pity_4star st' = 0) /\
  (exists results st9 result st',
     drawBatch default_banner initial_state 9 nine_misses_then_hit 0%nat
     = inr (results, st9, 18%nat) /\
     pity_4star st9 = 9 /\
     draw default_banner st9 nine_misses_then_hit 18%nat
     = inr (result, st', 21%nat) /\
     rarity result = Star5 /\
     pity_4star st' = 0).
Proof.
  split.
  - eexists _, _. split; [vm_compute; reflexivity|].
    repeat split.
  - eexists _, _, _, _. split; [vm_compute; reflexivity|].
    split; [reflexivity|]. split; [vm_compute; reflexivity|].
    split; reflexivity.
Qed.

(** C1 (amended).  A 5-star result sets [pity_5star] to 0 and sets
    [pity_4star] to 0 when the 4-star hard pity is reached
    ([pity_4star + 1] is at least the 4-star [hard_pity_pull]), leaving
    it unchanged otherwise; a 4-star result sets [pity_4star] to 0 and
    adds 1 to [pity_5star]; a 3-star result adds 1 to both.  The draw
    is the only operation on the two counts. *)
Theorem draw_counters b st source cursor result st' cursor'
    (H : draw b st source cursor = inr (result, st', cursor')) :
  match rarity result with
  | Star5 =>
      pity_5star st' = 0 /\
      pity_4star st' =
        (if reached_4star_hard_pity b st then 0 else pity_4star st)
  | Star4 =>
      pity_4star st' = 0 /\ pity_5star st' = pity_5star st + 1
  | Star3 =>
      pity_5star st' = pity_5star st + 1 /\
      pity_4star st' = pity_4star st + 1
  end.
Proof.
  rewrite draw_unfold in H.
  destruct (Qltb _ _).
  { apply hit_5star_inr in H as (-> & H5 & H4 & _). auto. }
  destruct (Qltb _ _).
  { apply hit_4star_inr in H as (-> & H5 & H4 & _). auto. }
  apply hit_3star_inr in H as (-> & H5 & H4 & _). auto.
Qed.

Lemma draw_counters_witness :
  exists st',
    draw default_banner (state_with 5 3) (samples [0.5; 0.1]%Q) 0%nat
    = inr ({| item := "Stone"; rarity := Star3; is_rate_up := false |}, st', 2%nat)
    /\ pity_5star st' = 6 /\ pity_4star st' = 4.
Proof.
  eexists. split; [vm_compute; reflexivity|].
  exact (draw_counters default_banner (state_with 5 3) (samples [0.5; 0.1]%Q)
           0%nat _ _ _ eq_refl).
Defined.

(** C9.  A draw reads one sample, [local_random], for its tier
    decision: the result is 5-star exactly when that sample is below
    the 5-star rate, and 4-star exactly when it is not and the same
    sample is below the 4-star rate; the sample is neither redrawn nor
    rescaled in between.  Beyond that sample a draw reads one sample to
    select the item and, for a 4-star or 5-star hit without the
    guaranteed flag, one for the UP test. *)
Theorem tier_from_one_sample b st source cursor result st' cursor'
    (H : draw b st source cursor = inr (result, st', cursor')) :
  let local_random := source cursor in
  let rate_5star := clamp_rate (caculate_rate_5star b (pity_5star st + 1)) in
  let rate_4star := clamp_rate (caculate_rate_4star b (pity_4star st + 1)) in
  (rarity result = Star5 <-> (local_random < rate_5star)%Q) /\
  (rarity result = Star4 <->
     (rate_5star <= local_random)%Q /\ (local_random < rate_4star)%Q) /\
  (rarity result = Star3 <->
     (rate_5star <= local_random)%Q /\ (rate_4star <= local_random)%Q) /\
  cursor' =
    match rarity result with
    | Star5 => if _5star_guaranteed st then 2 + cursor else 3 + cursor
    | Star4 => if _4star_guaranteed st then 2 + cursor else 3 + cursor
    | Star3 => 2 + cursor
    end%nat.
Proof.
  cbv zeta. rewrite draw_unfold in H.
  destruct (Qltb (source cursor) (clamp_rate (caculate_rate_5star b _))) eqn:E5.
  { apply Qltb_lt in E5.
    apply hit_5star_inr in H as (-> & _ & _ & _ & _ & _ & ->).
    split; [tauto|]. split; [|split].
    - split; [discriminate|].
      intros [Hge _]. exfalso. exact (Qlt_not_le _ _ E5 Hge).
    - split; [discriminate|].
      intros [Hge _]. exfalso. exact (Qlt_not_le _ _ E5 Hge).
    - destruct (_5star_guaranteed st); reflexivity. }
  apply Qltb_ge in E5.
  destruct (Qltb (source cursor) (clamp_rate (caculate_rate_4star b _))) eqn:E4.
  { apply Qltb_lt in E4.
    apply hit_4star_inr in H as (-> & _ & _ & _ & _ & _ & ->).
    split; [|split; [tauto|split]].
    - split; [discriminate|].
      intros Hlt. exfalso. exact (Qlt_not_le _ _ Hlt E5).
    - split; [discriminate|].
      intros [_ Hge]. exfalso. exact (Qlt_not_le _ _ E4 Hge).
    - destruct (_4star_guaranteed st); reflexivity. }
  apply Qltb_ge in E4.
  apply hit_3star_inr in H as (-> & _ & _ & _ & _ & ->).
  split; [|split; [|split; [tauto|reflexivity]]].
  - split; [discriminate|].
    intros Hlt. exfalso. exact (Qlt_not_le _ _ Hlt E5).
  - split; [discriminate|].
    intros [_ Hlt]. exfalso. exact (Qlt_not_le _ _ Hlt E4).
Qed.

Lemma tier_from_one_sample_witness :
  exists result st',
    draw default_banner (state_with 5 3) (samples [0.03; 0.7; 0.9]%Q) 0%nat
    = inr (result, st', 3%nat) /\
    (rarity result = Star4 <->
     (clamp_rate (caculate_rate_5star default_banner 6) <= 0.03)%Q /\
     (0.03 < clamp_rate (caculate_rate_4star default_banner 4))%Q).
Proof.
  eexists _, _. split; [vm_compute; reflexivity|].
  exact (proj1 (proj2
    (tier_from_one_sample default_banner (state_with 5 3)
       (samples [0.03; 0.7; 0.9]%Q) 0%nat _ _ _ eq_refl))).
Defined.

End CounterClaims.

(** ** The effective rate and the hard pity *)

Module RateFacts.
Import Engine.

Lemma Qsum_nonneg (l : list Q) :
  Forall (fun q => (0 <= q)%Q) l -> (0 <= Qsum l)%Q.
Proof.
  induction 1 as [|q rest Hq _ IH]; simpl.
  - apply Qle_refl.
  - rewrite <- (Qplus_0_l 0). apply Qplus_le_compat; assumption.
Qed.

(** With non-negative increments the soft-pity sum grows with the pull. *)
Lemma soft_pity_sum_mono (sp : list SoftPity) (k k' : Z) :
  Forall (fun interval => (0 <= increment interval)%Q) sp ->
  k <= k' ->
  (soft_pity_sum sp k <= soft_pity_sum sp k')%Q.
Proof.
  intros Hpos Hk. unfold soft_pity_sum, started.
  induction Hpos as [|interval rest Hinc _ IH]; simpl.
  - apply Qle_refl.
  - rewrite !filter_cons.
    destruct (decide (start_pull interval <= k)) as [Hs|Hs];
      destruct (decide (start_pull interval <= k')) as [Hs'|Hs']; simpl.
    + apply Qplus_le_compat; [apply Qle_refl | exact IH].
    + lia.
    + rewrite <- (Qplus_0_l (Qsum _)) at 1.
      apply Qplus_le_compat; [exact Hinc | exact IH].
    + exact IH.
Qed.

Lemma caculate_rate_below_hard (base : Q) (p : Progression) (k : Z) :
  k < hard_pity_pull p ->
  caculate_rate base p k = (base + soft_pity_sum (soft_pity p) k)%Q.
Proof.
  intros Hk. unfold caculate_rate.
  destruct (Z.leb_spec (hard_pity_pull p) k); [lia | reflexivity].
Qed.

Lemma caculate_rate_at_hard (base : Q) (p : Progression) (k : Z) :
  hard_pity_pull p <= k -> caculate_rate base p k = hard_pity_rate p.
Proof.
  intros Hk. unfold caculate_rate.
  destruct (Z.leb_spec (hard_pity_pull p) k); [reflexivity | lia].
Qed.

(** A sample below 1 is below a clamped rate exactly when it is below
    the rate. *)
Lemma below_clamp_rate (r rate : Q) :
  (r < 1)%Q -> ((r < clamp_rate rate)%Q <-> (r < rate)%Q).
Proof.
  intros Hr. unfold clamp_rate. destruct (Qltb 1 rate) eqn:E; [|tauto].
  apply Qltb_lt in E. split; [|intros _; exact Hr].
  intros _. exact (Qlt_trans _ _ _ Hr E).
Qed.

(** At the hard pity the sample decides a 5-star result by comparison
    with the clamped [hard_pity_rate]. *)
Lemma hard_pity_hit b st source cursor :
  hard_pity_pull (progression5 b) <= pity_5star st + 1 ->
  (source cursor < clamp_rate (hard_pity_rate (progression5 b)))%Q ->
  draw b st source cursor = hit_5star b st source (S cursor).
Proof.
  intros Hk Hr. rewrite DrawFacts.draw_unfold.
  unfold caculate_rate_5star. rewrite caculate_rate_at_hard by exact Hk.
  apply Qltb_lt in Hr. rewrite Hr. reflexivity.
Qed.

Lemma hard_pity_certain b st source cursor :
  hard_pity_pull (progression5 b) <= pity_5star st + 1 ->
  (1 <= hard_pity_rate (progression5 b))%Q ->
  (source cursor < 1)%Q ->
  up_pool b Star5 <> [] -> non_up_pool b Star5 <> [] ->
  exists result st' cursor',
    draw b st source cursor = inr (result, st', cursor') /\
    rarity result = Star5.
Proof.
  intros Hk Hrate Hr Hup Hnon.
  rewrite hard_pity_hit; [|exact Hk|].
  - destruct (DrawFacts.hit_5star_total b st source (S cursor) Hup Hnon)
      as (result & st' & cursor' & Hhit).
    exists result, st', cursor'. split; [exact Hhit|].
    apply DrawFacts.hit_5star_inr in Hhit. tauto.
  - apply below_clamp_rate; [exact Hr|].
    exact (Qlt_le_trans _ _ _ Hr Hrate).
Qed.

End RateFacts.

Module RateClaims.
Import BannerManager Engine DrawFacts RateFacts Samples DrawSamples.

(** C3, as stated, fails: a form with a negative soft-pity increment
    passes [validateForm]; in the posted banner the 5-star rate at pull
    2 is below the rate at pull 1. *)
Lemma negative_increment_lowers_rate :
  exists b, saveBanner negative_increment = Some b /\
    1 <= 1 <= hard_pity_pull (progression5 b) - 1 /\
    1 <= 2 <= hard_pity_pull (progression5 b) - 1 /\
    (caculate_rate_5star b 2 < caculate_rate_5star b 1)%Q.
Proof.
  eexists. split; [vm_compute; reflexivity|].
  split; [simpl; lia|]. split; [simpl; lia|]. reflexivity.
Qed.

(** C3 (amended).  Below the hard pity the 5-star rate at pull [k] is
    the base rate plus the sum of the increments of the soft-pity
    intervals whose [start_pull] is at most [k]; from [hard_pity_pull]
    on it is [hard_pity_rate]; and when no increment is negative the
    rate is non-decreasing in [k] below the hard pity. *)
Theorem caculate_rate_5star_shape (b : Banner) (k k' : Z)
    (Hk : k <= k') (Hk' : k' < hard_pity_pull (progression5 b)) :
  caculate_rate_5star b k =
    (base_5star_rate (settings b)
     + Qsum (map increment
               (filter (fun interval => (start_pull interval <= k)%Z)
                       (soft_pity (progression5 b)))))%Q /\
  (forall pull, hard_pity_pull (progression5 b) <= pull ->
     caculate_rate_5star b pull = hard_pity_rate (progression5 b)) /\
  (Forall (fun interval => (0 <= increment interval)%Q)
          (soft_pity (progression5 b)) ->
   (caculate_rate_5star b k <= caculate_rate_5star b k')%Q).
Proof.
  unfold caculate_rate_5star. split; [|split].
  - apply caculate_rate_below_hard. lia.
  - intros pull Hp. apply caculate_rate_at_hard. exact Hp.
  - intros Hpos. rewrite !caculate_rate_below_hard by lia.
    apply Qplus_le_compat; [apply Qle_refl|].
    apply soft_pity_sum_mono; assumption.
Qed.

Lemma caculate_rate_5star_shape_witness :
  (caculate_rate_5star default_banner 73 <= caculate_rate_5star default_banner 74)%Q /\
  caculate_rate_5star default_banner 80 = 1%Q.
Proof.
  destruct (caculate_rate_5star_shape default_banner 73 74) as (_ & Hhard & Hmono).
  - lia.
  - simpl. lia.
  - split.
    + apply Hmono. repeat constructor. simpl. discriminate.
    + apply (Hhard 80). simpl. lia.
Defined.

(** C4, as stated, fails: [validateForm] accepts a hard-pity rate of
    one half; on the posted banner the draw made at pull 80 (79 pulls
    since the last 5-star) with the sample 0.75 gives a 3-star
    result. *)
Lemma half_hard_pity_misses :
  exists b result st',
    saveBanner half_hard_pity = Some b /\
    pity_5star (state_with 79 0) + 1 = hard_pity_pull (progression5 b) /\
    (0 <= 0.75 < 1)%Q /\
    draw b (state_with 79 0) (samples [0.75; 0.5]%Q) 0%nat
    = inr (result, st', 2%nat) /\
    rarity result = Star3.
Proof.
  eexists _, _, _. split; [vm_compute; reflexivity|].
  split; [reflexivity|]. split; [split; [discriminate | reflexivity]|].
  split; [vm_compute; reflexivity | reflexivity].
Qed.

(** C4 (amended).  When [pity_5star + 1] has reached [hard_pity_pull]
    the 5-star rate is [hard_pity_rate], and the result of the draw is
    5-star exactly when the sample is below that rate (clamped to 1).
    [validateForm] does not constrain [hard_pity_rate]; when it is at
    least 1 the draw returns a 5-star result for every sample below 1.
    In particular, with base rate 0.008, soft pity [{74,79,0.06}],
    hard pity at pull 80 with rate 1 and 79 pulls since the last
    5-star, every draw with a sample below 1 returns a 5-star result. *)
Theorem hard_pity_draw b st source cursor
    (Hk : hard_pity_pull (progression5 b) <= pity_5star st + 1) :
  caculate_rate_5star b (pity_5star st + 1) = hard_pity_rate (progression5 b) /\
  (forall result st' cursor',
     draw b st source cursor = inr (result, st', cursor') ->
     (rarity result = Star5 <->
      (source cursor < clamp_rate (hard_pity_rate (progression5 b)))%Q)) /\
  ((1 <= hard_pity_rate (progression5 b))%Q ->
   (source cursor < 1)%Q ->
   up_pool b Star5 <> [] -> non_up_pool b Star5 <> [] ->
   exists result st' cursor',
     draw b st source cursor = inr (result, st', cursor') /\
     rarity result = Star5) /\
  (forall st0 source0 cursor0,
     pity_5star st0 = 79 -> (source0 cursor0 < 1)%Q ->
     exists result st' cursor',
       draw default_banner st0 source0 cursor0 = inr (result, st', cursor') /\
       rarity result = Star5).
Proof.
  assert (Hrate : caculate_rate_5star b (pity_5star st + 1)
                  = hard_pity_rate (progression5 b))
    by (apply caculate_rate_at_hard; exact Hk).
  split; [exact Hrate|]. split; [|split].
  - intros result st' cursor' Hd. rewrite draw_unfold, Hrate in Hd.
    destruct (Qltb (source cursor) _) eqn:E.
    + apply Qltb_lt in E. apply hit_5star_inr in Hd. tauto.
    + apply Qltb_ge in E. split; [|intros Hlt; exfalso; exact (Qlt_not_le _ _ Hlt E)].
      destruct (Qltb (source cursor) _).
      * apply hit_4star_inr in Hd as (-> & _). discriminate.
      * apply hit_3star_inr in Hd as (-> & _). discriminate.
  - apply hard_pity_certain. exact Hk.
  - intros st0 source0 cursor0 H79 Hr.
    apply hard_pity_certain; try discriminate; try assumption.
    rewrite H79. simpl. lia.
Qed.

Lemma hard_pity_draw_witness :
  caculate_rate_5star default_banner (pity_5star (state_with 79 0) + 1) = 1%Q /\
  exists result st' cursor',
    draw default_banner (state_with 79 0) (samples [0.999; 0.5]%Q) 0%nat
    = inr (result, st', cursor') /\ rarity result = Star5.
Proof.
  destruct (hard_pity_draw default_banner (state_with 79 0)
              (samples [0.999; 0.5]%Q) 0%nat) as (Hrate & _ & Hsure & _).
  - simpl. lia.
  - split; [exact Hrate|].
    apply Hsure; try discriminate. reflexivity.
Defined.

End RateClaims.

(** ** The guaranteed-UP flags along a sequence of draws *)

Module GuaranteeFacts.
Import Engine DrawFacts.

Section Batch.

Variable b : Banner.
Variable source : nat -> Q.

Lemma drawBatch_cons st n cursor result results st'' cursor'' :
  drawBatch b st n source cursor = inr (result :: results, st'', cursor'') ->
  exists n' st' cursor',
    n = S n' /\
    draw b st source cursor = inr (result, st', cursor') /\
    drawBatch b st' n' source cursor' = inr (results, st'', cursor'').
Proof.
  destruct n as [|n']; simpl; [discriminate|]. intros H.
  apply bind_inr in H as ([r st1] & c1 & Hd & H).
  apply bind_inr in H as ([rs st2] & c2 & Hb & H).
  inversion H; subst. eauto 7.
Qed.

(** The draws after a prefix of the results form a batch of their
    own. *)
Lemma drawBatch_skip prefix : forall st n cursor results st'' cursor'',
  drawBatch b st n source cursor = inr (prefix ++ results, st'', cursor'') ->
  exists n' st' cursor',
    drawBatch b st' n' source cursor' = inr (results, st'', cursor'').
Proof.
  induction prefix as [|r prefix IH]; intros st n cursor results st'' cursor'' H.
  - eauto.
  - simpl in H. apply drawBatch_cons in H as (n' & st' & c' & _ & _ & H).
    eapply IH. exact H.
Qed.

Section Tier.

Variable tier : Rarity.
Hypothesis Htier : has_up tier.

(** One draw and the flag of a tier: a hit of the tier is a UP item
    when the flag was set, and leaves the flag set exactly when it is
    not a UP item; any other result leaves the flag as it was. *)
Lemma draw_flag st cursor result st' cursor' :
  draw b st source cursor = inr (result, st', cursor') ->
  (rarity result = tier ->
     guaranteed tier st' = negb (is_rate_up result) /\
     (guaranteed tier st = true -> is_rate_up result = true)) /\
  (rarity result <> tier -> guaranteed tier st' = guaranteed tier st).
Proof.
  intros H. rewrite draw_unfold in H.
  destruct (Qltb _ _).
  { apply hit_5star_inr in H as (Hr & _ & _ & H5 & H4 & Hforced & _).
    rewrite Hr. destruct Htier as [-> | ->]; simpl; split;
      try tauto; try congruence; auto. }
  destruct (Qltb _ _).
  { apply hit_4star_inr in H as (Hr & _ & _ & H5 & H4 & Hforced & _).
    rewrite Hr. destruct Htier as [-> | ->]; simpl; split;
      try tauto; try congruence; auto. }
  apply hit_3star_inr in H as (Hr & _ & _ & H5 & H4 & _).
  rewrite Hr. destruct Htier as [-> | ->]; simpl; split;
    try tauto; try congruence; auto.
Qed.

(** With the flag of a tier set, the next hit of that tier is a UP
    item. *)
Lemma next_hit_is_up mid :
  forall st n cursor hit rest st'' cursor'',
  drawBatch b st n source cursor = inr (mid ++ hit :: rest, st'', cursor'') ->
  (forall r, r ∈ mid -> rarity r <> tier) ->
  guaranteed tier st = true ->
  rarity hit = tier ->
  is_rate_up hit = true.
Proof.
  induction mid as [|m mid IH];
    intros st n cursor hit rest st'' cursor'' H Hmid Hflag Hhit; simpl in H;
    apply drawBatch_cons in H as (n' & st' & c' & _ & Hd & H).
  - destruct (draw_flag _ _ _ _ _ Hd) as [Hsame _].
    apply Hsame; assumption.
  - destruct (draw_flag _ _ _ _ _ Hd) as [_ Hother].
    eapply IH; [exact H | | | exact Hhit].
    + intros r Hr. apply Hmid. right. exact Hr.
    + rewrite Hother; [exact Hflag|]. apply Hmid. left.
Qed.

End Tier.

End Batch.

End GuaranteeFacts.

Module GuaranteeClaims.
Import Engine DrawFacts GuaranteeFacts DrawSamples.

(** C2.  In every sequence of draws from the initial state, of two
    consecutive 5-star hits (no 5-star result in between) the second is
    a UP item whenever the first is not; the same holds for 4-star
    hits. *)
Theorem no_two_non_up_hits b n source cursor results st' cursor'
    (tier : Rarity) (before : list DrawResult) (first : DrawResult)
    (between : list DrawResult) (second : DrawResult)
    (after : list DrawResult)
    (Hrun : drawBatch b initial_state n source cursor
            = inr (results, st', cursor'))
    (Htier : tier = Star5 \/ tier = Star4)
    (Hsplit : results = before ++ first :: between ++ second :: after)
    (Hfirst : rarity first = tier)
    (Hnon_up : is_rate_up first = false)
    (Hbetween : forall r, r ∈ between -> rarity r <> tier)
    (Hsecond : rarity second = tier) :
  is_rate_up second = true.
Proof.
  subst results.
  apply drawBatch_skip in Hrun as (n1 & st1 & c1 & Hrun).
  apply drawBatch_cons in Hrun as (n2 & st2 & c2 & _ & Hd & Hrun).
  destruct (draw_flag b source tier Htier _ _ _ _ _ Hd) as [Hhit _].
  destruct (Hhit Hfirst) as [Hflag _].
  rewrite Hnon_up in Hflag. simpl in Hflag.
  exact (next_hit_is_up b source tier Htier between _ _ _ _ _ _ _
           Hrun Hbetween Hflag Hsecond).
Qed.

Lemma no_two_non_up_hits_witness :
  drawBatch default_banner initial_state 3
    (samples [0.001; 0.7; 0.2; 0.5; 0.1; 0.002; 0.1]%Q) 0%nat
  = inr ([ {| item := "Sage"; rarity := Star5; is_rate_up := false |};
           {| item := "Stone"; rarity := Star3; is_rate_up := false |};
           {| item := "Hero"; rarity := Star5; is_rate_up := true |} ],
         {| pity_5star := 0; pity_4star := 1;
            _5star_guaranteed := false; _4star_guaranteed := false |},
         7%nat) /\
  is_rate_up {| item := "Hero"; rarity := Star5; is_rate_up := true |} = true.
Proof.
  assert (Hrun :
    drawBatch default_banner initial_state 3
      (samples [0.001; 0.7; 0.2; 0.5; 0.1; 0.002; 0.1]%Q) 0%nat
    = inr ([ {| item := "Sage"; rarity := Star5; is_rate_up := false |};
             {| item := "Stone"; rarity := Star3; is_rate_up := false |};
             {| item := "Hero"; rarity := Star5; is_rate_up := true |} ],
           {| pity_5star := 0; pity_4star := 1;
              _5star_guaranteed := false; _4star_guaranteed := false |},
           7%nat)) by (vm_compute; reflexivity).
  split; [exact Hrun|].
  apply (no_two_non_up_hits _ _ _ _ _ _ _ Star5 []
           {| item := "Sage"; rarity := Star5; is_rate_up := false |}
           [ {| item := "Stone"; rarity := Star3; is_rate_up := false |} ]
           {| item := "Hero"; rarity := Star5; is_rate_up := true |} []
           Hrun).
  - left. reflexivity.
  - reflexivity.
  - reflexivity.
  - reflexivity.
  - intros r Hr. apply elem_of_cons in Hr as [->|Hr]; [discriminate|].
    inversion Hr.
  - reflexivity.
Defined.

End GuaranteeClaims.
